(** * tokkenAPI: the authentication service of [index.js]

    A shallow embedding of the Express application in [src/index.js]
    (the two older copies in [src/unnamed/part_000] have the same handlers,
    line for line) and the properties of its register / login / token
    guard / product / users routes.

    What is embedded, and how:
    - JavaScript values carried by a parsed JSON body are [jsval], with the
      language's truthiness ([!x] is [negb (truthy x)]);
    - [req.body] and [req.headers] are finite maps (stdpp's [gmap]);
    - every [await] on a Mongoose call is one node of a handler program
      [Prog]: the call and the continuation that receives its outcome, so
      that handlers can be run alone ([run]) or interleaved at their
      [await] points ([schedule]), which is how Node runs them;
    - the libraries the file only calls ([jsonwebtoken], Mongoose's casts)
      are parameters of the development, with the facts relied upon stated
      as hypotheses of [Section Service]. *)

From Stdlib Require Import ZArith Floats Lia Ascii String.
From stdpp Require Import base option list strings gmap.

Open Scope string_scope.

(** ** JavaScript values *)

Module JS.

(** The scalar values a JSON body field can hold, plus [undefined] for a
    field that is not there.  Fields holding nested objects or arrays are
    outside this model. *)
Inductive jsval : Type :=
| JUndefined
| JNull
| JBool (b : bool)
| JNum (x : float)
| JStr (s : string).

(** [!!v]: [undefined], [null], [false], [0], [-0], [NaN] and [''] are
    falsy, everything else is truthy. *)
Definition truthy (v : jsval) : bool :=
  match v with
  | JUndefined | JNull => false
  | JBool b => b
  | JNum x => negb (PrimFloat.eqb x 0%float || PrimFloat.is_nan x)
  | JStr s => negb (bool_decide (s = ""))
  end.

(** Truthiness of [string | undefined], the type of a header lookup. *)
Definition truthy_header (h : option string) : bool :=
  match h with
  | None => false
  | Some s => negb (bool_decide (s = ""))
  end.

(** [o[k]] on a parsed object: [undefined] when the key is missing. *)
Definition field (o : gmap string jsval) (k : string) : jsval :=
  default JUndefined (o !! k).

(** [String.prototype.split(sep)] for a one-character separator: every
    occurrence of [sep] ends a piece, so the result is never empty and
    [''.split(' ')] is [['']]. *)
Fixpoint split (sep : ascii) (s : string) : list string :=
  match s with
  | EmptyString => [EmptyString]
  | String c rest =>
      if bool_decide (c = sep) then EmptyString :: split sep rest
      else match split sep rest with
           | piece :: pieces => String c piece :: pieces
           | [] => [String c EmptyString]
           end
  end.

(** [sep] does not occur in [s]. *)
Fixpoint free_of (sep : ascii) (s : string) : bool :=
  match s with
  | EmptyString => true
  | String c rest => negb (bool_decide (c = sep)) && free_of sep rest
  end.

(** JSON documents sent back by [res.json]. *)
#[warnings="-register-all"] Inductive json : Type :=
| JsonStr (s : string)
| JsonNum (x : float)
| JsonObj (fields : list (string * json))
| JsonArr (items : list json).

(** The value under key [k] of a JSON object, if any. *)
Definition json_get (k : string) (j : json) : option json :=
  match j with
  | JsonObj fields =>
      match list_find (λ kv : string * json, fst kv = k) fields with
      | Some (_, kv) => Some (snd kv)
      | None => None
      end
  | _ => None
  end.

(** The keys of a JSON object. *)
Definition json_keys (j : json) : list string :=
  match j with
  | JsonObj fields => map fst fields
  | _ => []
  end.

End JS.
Export JS.

(** ** Outcomes of calls that can throw or reject *)

Inductive Result (E A : Type) : Type :=
| Ok (a : A)
| Err (e : E).
Arguments Ok {E A} a.
Arguments Err {E A} e.

(** ** Tokens *)

(** The payload of a token as [jwt.sign] builds it on line 169: the
    [email] given by the caller, [iat] and [exp] in seconds since the
    epoch. *)
Record Claims : Type := mkClaims {
  email : string;
  iat : Z;
  exp : Z
}.

(** The errors [jwt.verify] hands to its callback. *)
Inductive JwtError : Type :=
| JwtMustBeProvided      (* the token argument is undefined *)
| JwtInvalid             (* malformed, or the signature does not match *)
| TokenExpired.          (* 'jwt expired' *)

(** ** The store *)

(** A document of the [User] collection (lines 26-31).  The [_id] and
    [__v] bookkeeping fields Mongoose adds are left out. *)
Record UserDoc : Type := mkUser {
  u_name : string;
  u_email : string;
  u_password : string
}.

(** A document of the [Product] collection (lines 34-39). *)
Record ProductDoc : Type := mkProduct {
  p_name : string;
  p_price : float;
  p_addedBy : string
}.

(** The database: both collections in insertion order. *)
Record Store : Type := mkStore {
  users : list UserDoc;
  products : list ProductDoc
}.

(** What a Mongoose call is rejected with.  Network and driver failures
    are not modelled: the store answers every call. *)
Inductive DbError : Type :=
| CastError              (* a query value cannot be cast to the path's type *)
| ValidationError        (* [save]: a path fails its cast or [required] *)
| DuplicateKey.          (* E11000: the unique index on [email] *)

(** ** Requests and responses *)

(** [req]: the headers, the parsed body, and [req.user], which only the
    token guard sets. *)
Record Request : Type := mkRequest {
  headers : gmap string string;
  body : gmap string jsval;
  user : option Claims
}.

(** [res.status(s).json(j)]. *)
Record Response : Type := mkResponse {
  status : Z;
  payload : json
}.

(** [{ message: m }]. *)
Definition message (m : string) : json := JsonObj [("message", JsonStr m)].

(** ** A stand-in for the libraries, for running the model

    The development below is parametric in the signature scheme and in
    Mongoose's casts.  This module gives one concrete choice of each,
    simple enough to compute with, under which the model can be evaluated
    on concrete requests.  Its tokens carry the key in clear: it stands for
    the shape of the interface, not for its security. *)

Module Plain.

(** A positive number, least significant bit first, closed by a dot. *)
Fixpoint enc_pos (p : positive) : string :=
  match p with
  | xI q => String "1" (enc_pos q)
  | xO q => String "0" (enc_pos q)
  | xH => "."
  end.

Fixpoint dec_pos (s : string) : option (positive * string) :=
  match s with
  | String c rest =>
      if bool_decide (c = "1"%char) then
        (λ qr, (xI (fst qr), snd qr)) <$> dec_pos rest
      else if bool_decide (c = "0"%char) then
        (λ qr, (xO (fst qr), snd qr)) <$> dec_pos rest
      else if bool_decide (c = "."%char) then Some (xH, rest)
      else None
  | EmptyString => None
  end.

Definition enc_Z (z : Z) : string :=
  match z with
  | Z0 => "z"
  | Zpos p => String "p" (enc_pos p)
  | Zneg p => String "n" (enc_pos p)
  end.

Definition dec_Z (s : string) : option (Z * string) :=
  match s with
  | String c rest =>
      if bool_decide (c = "z"%char) then Some (0%Z, rest)
      else if bool_decide (c = "p"%char) then
        (λ qr, (Zpos (fst qr), snd qr)) <$> dec_pos rest
      else if bool_decide (c = "n"%char) then
        (λ qr, (Zneg (fst qr), snd qr)) <$> dec_pos rest
      else None
  | EmptyString => None
  end.

(** [strip k s] is what follows [k] in [s], when [s] starts with [k]. *)
Fixpoint strip (k s : string) : option string :=
  match k with
  | EmptyString => Some s
  | String a k' =>
      match s with
      | String b s' => if bool_decide (a = b) then strip k' s' else None
      | EmptyString => None
      end
  end.

(** Key, issue time, expiry time, email. *)
Definition jws_sign (c : Claims) (key : string) : string :=
  key +:+ enc_Z (iat c) +:+ enc_Z (exp c) +:+ email c.

Definition jws_verify (token key : string) : option Claims :=
  r0 ← strip key token;
  '(i, r1) ← dec_Z r0;
  '(e, r2) ← dec_Z r1;
  Some (mkClaims r2 i e).

(** Strings are kept, every other value is refused. *)
Definition castString (v : jsval) : option string :=
  match v with
  | JStr s => Some s
  | _ => None
  end.

(** Numbers are kept, every other value is refused. *)
Definition castNumber (v : jsval) : option float :=
  match v with
  | JNum x => Some x
  | _ => None
  end.

End Plain.

(** ** Sample data

    The requests and stores of the example of the specification: Ann and
    Bob registering under the same address, and a token issued to Ann at
    second 1000 under the default key. *)

Module Sample.

Definition empty : Store := mkStore [] [].

Definition ann : UserDoc := mkUser "Ann" "a@x.com" "pw1".

Definition with_ann : Store := mkStore [ann] [].

Definition register_request (name mail pass : string) : Request :=
  mkRequest ∅
    {[ "name" := JStr name; "email" := JStr mail; "password" := JStr pass ]}
    None.

Definition login_request (mail pass : string) : Request :=
  mkRequest ∅ {[ "email" := JStr mail; "password" := JStr pass ]} None.

Definition ann_claims : Claims := mkClaims "a@x.com" 1000 4600.

Definition ann_token : string := Plain.jws_sign ann_claims "your_secret_key".

(** A request carrying [value] as its Authorization header. *)
Definition with_header (value : string) (fields : gmap string jsval)
  : Request :=
  mkRequest {[ "authorization" := value ]} fields None.

(** A product whose price is the number 0. *)
Definition free_pen : gmap string jsval :=
  {[ "name" := JStr "pen"; "price" := JNum 0%float ]}.

(** A request with Ann's token as bearer, before and after the guard. *)
Definition bearer (fields : gmap string jsval) : Request :=
  with_header ("Bearer " +:+ ann_token) fields.

Definition passed (fields : gmap string jsval) : Request :=
  mkRequest {[ "authorization" := "Bearer " +:+ ann_token ]} fields
    (Some ann_claims).

(** A product body that also names somebody else as [addedBy]. *)
Definition pen : gmap string jsval :=
  {[ "name" := JStr "pen"; "price" := JNum 2.5%float;
     "addedBy" := JStr "mallory@x.com" ]}.

(** A product body whose price is a truthy non-number. *)
Definition priceless_pen : gmap string jsval :=
  {[ "name" := JStr "pen"; "price" := JStr "a lot" ]}.

(** The turns of two handlers in flight: both first awaits, then both
    second awaits. *)
Definition both_then_both : list nat := [0; 1; 0; 1]%nat.

End Sample.

(** ** The service *)

Section Service.

(** [process.env.JWT_SECRET]. *)
Variable JWT_SECRET : option string.

(** The [jws] layer under [jsonwebtoken]: [jws_sign c key] is the compact
    token for payload [c] under [key]; [jws_verify token key] is the
    payload of [token] when it is well formed and its signature matches
    under [key]. *)
Variable jws_sign : Claims → string → string.
Variable jws_verify : string → string → option Claims.

(** A token verifies, under the key it was signed with, to its payload. *)
Hypothesis jws_verify_sign :
  ∀ c key, jws_verify (jws_sign c key) key = Some c.

(** A token is never the empty string. *)
Hypothesis jws_sign_nonempty : ∀ c key, jws_sign c key ≠ "".

(** Mongoose's cast of a value to a [String] path and to a [Number] path;
    [None] is a failed cast. *)
Variable castString : jsval → option string.
Variable castNumber : jsval → option float.

(** A string is cast to itself. *)
Hypothesis castString_JStr : ∀ s, castString (JStr s) = Some s.

(** *** Token codec *)

(** Line 63: [process.env.JWT_SECRET || 'your_secret_key']. *)
Definition SECRET_KEY : string :=
  match JWT_SECRET with
  | Some s => if bool_decide (s = "") then "your_secret_key" else s
  | None => "your_secret_key"
  end.

(** [jwt.sign({ email }, key, { expiresIn: '1h' })] called when the clock
    reads [now] seconds: [iat] is [now] and [exp] is [iat + 3600]. *)
Definition jwt_sign (mail : string) (key : string) (now : Z) : string :=
  jws_sign (mkClaims mail now (now + 3600)%Z) key.

(** [jwt.verify(token, key, cb)] called when the clock reads [now]: the
    [err] or the payload given to [cb].  A missing or empty token is
    refused before anything is decoded; a token is expired from the second
    [exp] on ([now >= exp]). *)
Definition jwt_verify (token : option string) (key : string) (now : Z)
  : Result JwtError Claims :=
  match token with
  | None => Err JwtMustBeProvided
  | Some t =>
      if bool_decide (t = "") then Err JwtMustBeProvided
      else match jws_verify t key with
           | None => Err JwtInvalid
           | Some c => if (exp c <=? now)%Z then Err TokenExpired else Ok c
           end
  end.

(** *** Mongoose calls *)

(** The first user document accepted by [P]. *)
Definition first_user (P : UserDoc → Prop) `{∀ u, Decision (P u)}
    (db : Store) : option UserDoc :=
  snd <$> list_find P (users db).

(** [User.findOne({ email })]. *)
Definition User_findOne_email (mail : jsval) (db : Store)
  : Result DbError (option UserDoc) :=
  match castString mail with
  | None => Err CastError
  | Some e => Ok (first_user (λ u, u_email u = e) db)
  end.

(** [User.findOne({ email, password })]: one query, both paths must match
    on the same document.  A value is compared after its cast to a
    string; an object-valued field, which Mongoose would read as query
    operators, is not a [jsval]. *)
Definition User_findOne_email_password (mail pass : jsval) (db : Store)
  : Result DbError (option UserDoc) :=
  match castString mail, castString pass with
  | Some e, Some p =>
      Ok (first_user (λ u, u_email u = e ∧ u_password u = p) db)
  | _, _ => Err CastError
  end.

(** A [required] [String] path: the cast must succeed and give a
    non-empty string. *)
Definition required_string (v : jsval) : option string :=
  match castString v with
  | Some s => if bool_decide (s = "") then None else Some s
  | None => None
  end.

(** [new User({ name, email, password }).save()]: validation, then the
    insert, which the unique index on [email] (line 28) refuses when a
    document with that email is there. *)
Definition User_save (name mail pass : jsval) (db : Store)
  : Result DbError unit * Store :=
  match required_string name, required_string mail, required_string pass with
  | Some n, Some e, Some p =>
      if bool_decide (Exists (λ u, u_email u = e) (users db))
      then (Err DuplicateKey, db)
      else (Ok (), mkStore (users db ++ [mkUser n e p]) (products db))
  | _, _, _ => (Err ValidationError, db)
  end.

(** A user document as JSON. *)
Definition user_json (u : UserDoc) : json :=
  JsonObj [("name", JsonStr (u_name u)); ("email", JsonStr (u_email u));
           ("password", JsonStr (u_password u))].

(** The projection [select('-' + path)]: the object without that key. *)
Definition select_minus (path : string) (j : json) : json :=
  match j with
  | JsonObj fields =>
      JsonObj (filter (λ kv : string * json, fst kv ≠ path) fields)
  | _ => j
  end.

(** [User.find().select('-password')]. *)
Definition User_find_minus_password (db : Store) : list json :=
  map (λ u, select_minus "password" (user_json u)) (users db).

(** [new Product({ name, price, addedBy }).save()]: all three paths are
    [required]. *)
Definition Product_save (name price : jsval) (addedBy : string)
    (db : Store) : Result DbError ProductDoc * Store :=
  match required_string name, castNumber price with
  | Some n, Some x =>
      if bool_decide (addedBy = "") then (Err ValidationError, db)
      else let doc := mkProduct n x addedBy in
           (Ok doc, mkStore (users db) (products db ++ [doc]))
  | _, _ => (Err ValidationError, db)
  end.

(** A product document as JSON. *)
Definition product_json (p : ProductDoc) : json :=
  JsonObj [("name", JsonStr (p_name p)); ("price", JsonNum (p_price p));
           ("addedBy", JsonStr (p_addedBy p))].

(** The Mongoose calls the handlers await, indexed by what they resolve
    to. *)
Inductive Op : Type → Type :=
| OpUserFindOneEmail (mail : jsval) : Op (option UserDoc)
| OpUserFindOneEmailPassword (mail pass : jsval) : Op (option UserDoc)
| OpUserSave (name mail pass : jsval) : Op unit
| OpUserFindMinusPassword : Op (list json)
| OpProductSave (name price : jsval) (addedBy : string) : Op ProductDoc
| OpProductFind : Op (list ProductDoc).

(** What a call settles with on store [db], and the store after it. *)
Definition exec {A} (op : Op A) (db : Store) : Result DbError A * Store :=
  match op in Op T return Result DbError T * Store with
  | OpUserFindOneEmail mail => (User_findOne_email mail db, db)
  | OpUserFindOneEmailPassword mail pass =>
      (User_findOne_email_password mail pass db, db)
  | OpUserSave name mail pass => User_save name mail pass db
  | OpUserFindMinusPassword => (Ok (User_find_minus_password db), db)
  | OpProductSave name price addedBy => Product_save name price addedBy db
  | OpProductFind => (Ok (products db), db)
  end.

(** *** Handler programs *)

(** An [async] handler: it sends its response, or awaits a call and goes
    on with what the call settled with. *)
Inductive Prog : Type :=
| Respond (r : Response)
| Await {A : Type} (op : Op A) (k : Result DbError A → Prog).

(** [try { x = await op; k x } catch (err) { handler }]: a rejection of
    [op] goes to [handler]. *)
Definition try_await {A} (op : Op A) (k : A → Prog) (handler : Prog) : Prog :=
  Await op (λ r, match r with Ok a => k a | Err _ => handler end).

(** [res.status(500).json({ message: 'Internal server error' })], the body
    of every [catch]. *)
Definition internal_server_error : Prog :=
  Respond (mkResponse 500 (message "Internal server error")).

(** One handler alone: every call is answered by the store as it is when
    the call is made. *)
Fixpoint run (p : Prog) (db : Store) : Response * Store :=
  match p with
  | Respond r => (r, db)
  | Await op k => let '(a, db') := exec op db in run (k a) db'
  end.

(** One turn of the event loop for a handler: its pending call settles
    and it runs up to its next [await]. *)
Definition step (p : Prog) (db : Store) : Prog * Store :=
  match p with
  | Respond r => (Respond r, db)
  | Await op k => let '(a, db') := exec op db in (k a, db')
  end.

(** Requests in flight together: [sched] names, turn after turn, the
    handler whose pending call settles next. *)
Fixpoint schedule (sched : list nat) (pool : list Prog) (db : Store)
  : list Prog * Store :=
  match sched with
  | [] => (pool, db)
  | i :: rest =>
      match pool !! i with
      | None => schedule rest pool db
      | Some p => let '(p', db') := step p db in
                  schedule rest (<[i := p']> pool) db'
      end
  end.

(** *** The token guard (lines 66-79) *)

(** What the middleware does with a request: it sends a response and the
    chain stops there, or it calls [next()] on the request it has
    annotated. *)
Inductive Guard : Type :=
| Reject (r : Response)
| Next (req : Request).

(** [authenticateToken], run when the clock reads [now]. *)
Definition authenticateToken (now : Z) (req : Request) : Guard :=
  let authHeader := headers req !! "authorization" in
  if negb (truthy_header authHeader) then
    Reject (mkResponse 401 (message "Token required"))
  else
    let token := split " " (default "" authHeader) !! 1%nat in
    match jwt_verify token SECRET_KEY now with
    | Err _ => Reject (mkResponse 403 (message "Invalid token"))
    | Ok claims => Next (mkRequest (headers req) (body req) (Some claims))
    end.

(** [app.METHOD(path, authenticateToken, handler)]: [handler] runs only
    on what the guard passes to [next()]. *)
Definition guarded (now : Z) (handler : Request → Prog) (req : Request)
  : Prog :=
  match authenticateToken now req with
  | Reject r => Respond r
  | Next req' => handler req'
  end.

(** *** Routes *)

(** [POST /register] (lines 111-128). *)
Definition post_register (req : Request) : Prog :=
  let name := field (body req) "name" in
  let mail := field (body req) "email" in
  let pass := field (body req) "password" in
  if negb (truthy name) || negb (truthy mail) || negb (truthy pass) then
    Respond (mkResponse 400 (message "Name, email, and password are required"))
  else
    try_await (OpUserFindOneEmail mail) (λ userExists,
      if bool_decide (is_Some userExists) then
        Respond (mkResponse 400 (message "User already exists"))
      else
        try_await (OpUserSave name mail pass) (λ _,
          Respond (mkResponse 201 (message "User registered successfully")))
        internal_server_error)
    internal_server_error.

(** [POST /login] (lines 159-175); [now] is the clock when [jwt.sign]
    runs. *)
Definition post_login (now : Z) (req : Request) : Prog :=
  let mail := field (body req) "email" in
  let pass := field (body req) "password" in
  if negb (truthy mail) || negb (truthy pass) then
    Respond (mkResponse 400 (message "Email and password are required"))
  else
    try_await (OpUserFindOneEmailPassword mail pass) (λ found,
      match found with
      | None =>
          Respond (mkResponse 401 (message "Invalid email or password"))
      | Some u =>
          let token := jwt_sign (u_email u) SECRET_KEY now in
          Respond (mkResponse 200 (JsonObj [("token", JsonStr token)]))
      end)
    internal_server_error.

(** The handler of [POST /product] (lines 206-219).  Reading
    [req.user.email] when [req.user] is not set throws inside the [try]. *)
Definition product_handler (req : Request) : Prog :=
  let name := field (body req) "name" in
  let price := field (body req) "price" in
  if negb (truthy name) || negb (truthy price) then
    Respond (mkResponse 400 (message "Product name and price are required"))
  else
    match user req with
    | None => internal_server_error
    | Some claims =>
        try_await (OpProductSave name price (email claims)) (λ newProduct,
          Respond (mkResponse 201
            (JsonObj [("message", JsonStr "Product added successfully");
                      ("product", product_json newProduct)])))
        internal_server_error
    end.

(** The handler of [GET /products] (lines 234-242). *)
Definition products_handler (req : Request) : Prog :=
  try_await OpProductFind (λ found,
    Respond (mkResponse 200 (JsonArr (map product_json found))))
  internal_server_error.

(** The handler of [GET /users] (lines 257-265). *)
Definition users_handler (req : Request) : Prog :=
  try_await OpUserFindMinusPassword (λ found,
    Respond (mkResponse 200 (JsonArr found)))
  internal_server_error.

Definition post_product (now : Z) : Request → Prog :=
  guarded now product_handler.
Definition get_products (now : Z) : Request → Prog :=
  guarded now products_handler.
Definition get_users (now : Z) : Request → Prog :=
  guarded now users_handler.

(** The token in a [200] response of [POST /login]. *)
Definition token_of (r : Response) : option string :=
  match json_get "token" (payload r) with
  | Some (JsonStr t) => Some t
  | _ => None
  end.

(** *** Registrations in flight *)

(** The moments of a registration for email [e]: not started, pre-check
    answered "none" and insert pending, or answered. *)
Inductive registering (e : string) : Prog → Prop :=
| registering_start req :
    field (body req) "email" = JStr e →
    registering e (post_register req)
| registering_insert name pass :
    registering e
      (try_await (OpUserSave name (JStr e) pass) (λ _,
         Respond (mkResponse 201 (message "User registered successfully")))
       internal_server_error)
| registering_done r :
    registering e (Respond r).

(** Some stored user has email [e]. *)
Definition taken (e : string) (db : Store) : Prop :=
  Exists (λ u, u_email u = e) (users db).

(** A pool of registrations for [e] with at most one of them answered
    201, and then [e] is in the store. *)
Definition one_winner (e : string) (pool : list Prog) (db : Store) : Prop :=
  Forall (registering e) pool
  ∧ (∀ i j ri rj,
       pool !! i = Some (Respond ri) → pool !! j = Some (Respond rj) →
       status ri = 201%Z → status rj = 201%Z → i = j)
  ∧ (∀ i r, pool !! i = Some (Respond r) → status r = 201%Z → taken e db).

(** ** Properties *)

(** *** Splitting the header *)

Lemma split_free sep s : free_of sep s = true → split sep s = [s].
Proof.
  induction s as [|c s IH]; simpl; [done|].
  case_bool_decide; simpl; [done|].
  intros Hs. by rewrite (IH Hs).
Qed.

Lemma split_app sep a b :
  free_of sep a = true →
  split sep (a +:+ String sep b) = a :: split sep b.
Proof.
  induction a as [|c a IH]; simpl.
  - intros _. by rewrite bool_decide_eq_true_2.
  - case_bool_decide; simpl; [done|].
    intros Ha. by rewrite (IH Ha).
Qed.

(** The second piece of ["scheme token"] is the token. *)
Lemma split_second scheme token :
  free_of " " scheme = true → free_of " " token = true →
  split " " (scheme +:+ " " +:+ token) !! 1%nat = Some token.
Proof.
  intros Hs Ht.
  change (" " +:+ token) with (String " " token).
  by rewrite (split_app _ _ _ Hs), (split_free _ _ Ht).
Qed.

(** *** Running handlers *)

Lemma run_try_await {A} (op : Op A) (k : A → Prog) (h : Prog) db :
  run (try_await op k h) db =
  match exec op db with
  | (Ok a, db') => run (k a) db'
  | (Err _, db') => run h db'
  end.
Proof. simpl. by destruct (exec op db) as [[a|e] db']. Qed.

Lemma first_user_None (P : UserDoc → Prop) `{∀ u, Decision (P u)} db :
  first_user P db = None ↔ Forall (λ u, ¬ P u) (users db).
Proof.
  unfold first_user. rewrite fmap_None. apply list_find_None.
Qed.

Lemma first_user_Some (P : UserDoc → Prop) `{∀ u, Decision (P u)} db u :
  first_user P db = Some u → u ∈ users db ∧ P u.
Proof.
  unfold first_user. intros ([i v] & Hfind & ->)%fmap_Some.
  apply list_find_Some in Hfind as (Hi & HP & _).
  split; [by eapply list_elem_of_lookup_2|done].
Qed.

Lemma first_user_is_Some (P : UserDoc → Prop) `{∀ u, Decision (P u)} db :
  is_Some (first_user P db) ↔ Exists P (users db).
Proof.
  split.
  - intros [u Hu]. apply first_user_Some in Hu as [Hin HP].
    apply Exists_exists. eauto.
  - intros (u & Hin & HP)%Exists_exists. unfold first_user.
    apply fmap_is_Some. by eapply list_find_elem_of.
Qed.

(** *** The token guard *)

Lemma authenticateToken_Next now req req' :
  authenticateToken now req = Next req' →
  ∃ claims, req' = mkRequest (headers req) (body req) (Some claims).
Proof.
  unfold authenticateToken. intros Hg.
  destruct (truthy_header _); simpl in Hg; [|done].
  destruct (jwt_verify _ _ _) as [claims|err]; [|done].
  exists claims. by inversion Hg.
Qed.

Lemma split_second_nonempty h token :
  split " " h !! 1%nat = Some token → h ≠ "".
Proof. by intros Hsplit ->. Qed.

(** C6.  A request with no Authorization header is answered 401 'Token
    required'; a request whose header carries a token (the second
    space-separated piece of the header) that fails verification is
    answered 403 'Invalid token'.  The two answers differ in status and in
    message, and in both cases the guarded route is that answer alone,
    whatever its handler is: the handler is not run. *)
Theorem guard_rejections now req :
  let required := mkResponse 401 (message "Token required") in
  let invalid := mkResponse 403 (message "Invalid token") in
  (headers req !! "authorization" = None →
   ∀ handler, guarded now handler req = Respond required)
  ∧ (∀ h token err,
       headers req !! "authorization" = Some h →
       split " " h !! 1%nat = Some token →
       jwt_verify (Some token) SECRET_KEY now = Err err →
       ∀ handler, guarded now handler req = Respond invalid)
  ∧ status required ≠ status invalid
  ∧ payload required ≠ payload invalid.
Proof.
  intros required invalid. split_and!; [| |done|done].
  - intros Hh handler. unfold guarded, authenticateToken. by rewrite Hh.
  - intros h token err Hh Htoken Hv handler.
    unfold guarded, authenticateToken. rewrite Hh. simpl.
    rewrite bool_decide_eq_false_2 by by eapply split_second_nonempty.
    simpl. by rewrite Htoken, Hv.
Qed.

(** The guard tests the header for truthiness, so a header that is there
    but empty is answered like a missing one. *)
Lemma guard_empty_header now req :
  headers req !! "authorization" = Some "" →
  ∀ handler,
    guarded now handler req =
    Respond (mkResponse 401 (message "Token required")).
Proof.
  intros Hh handler. unfold guarded, authenticateToken. by rewrite Hh.
Qed.

(** A header with a single word has no token to verify and is answered
    403. *)
Lemma guard_no_token now req h :
  headers req !! "authorization" = Some h → h ≠ "" →
  split " " h !! 1%nat = None →
  ∀ handler,
    guarded now handler req =
    Respond (mkResponse 403 (message "Invalid token")).
Proof.
  intros Hh Hne Hsplit handler. unfold guarded, authenticateToken.
  rewrite Hh. simpl. rewrite bool_decide_eq_false_2 by done. simpl.
  by rewrite Hsplit.
Qed.

(** C10.  The guard never looks at the first word of the header: when the
    header is [scheme token], with no space inside either word, and the
    token verifies, the request goes on to the handler with the token's
    payload as [req.user], whatever [scheme] is. *)
Theorem guard_ignores_scheme now req scheme token claims :
  headers req !! "authorization" = Some (scheme +:+ " " +:+ token) →
  free_of " " scheme = true →
  free_of " " token = true →
  jwt_verify (Some token) SECRET_KEY now = Ok claims →
  let req' := mkRequest (headers req) (body req) (Some claims) in
  authenticateToken now req = Next req'
  ∧ ∀ handler, guarded now handler req = handler req'.
Proof.
  intros Hh Hs Ht Hv req'.
  assert (authenticateToken now req = Next req') as Hg.
  { unfold authenticateToken. rewrite Hh. simpl.
    rewrite bool_decide_eq_false_2 by (by destruct scheme). simpl.
    by rewrite (split_second _ _ Hs Ht), Hv. }
  split; [done|]. intros handler. unfold guarded. by rewrite Hg.
Qed.

(** *** Protected routes *)

(** C9.  An authenticated POST /product whose price is the number 0 is
    answered 400 'Product name and price are required' and the store is
    left as it was, whatever the name is: [!price] holds for 0. *)
Theorem product_price_zero_rejected now req req' db x :
  authenticateToken now req = Next req' →
  field (body req) "price" = JNum x →
  PrimFloat.eqb x 0%float = true →
  run (post_product now req) db =
  (mkResponse 400 (message "Product name and price are required"), db).
Proof.
  intros Hg Hprice Hx. unfold post_product, guarded. rewrite Hg.
  apply authenticateToken_Next in Hg as [claims ->].
  unfold product_handler. simpl. rewrite Hprice. simpl. rewrite Hx. simpl.
  by rewrite orb_true_r.
Qed.

Lemma select_minus_password_user u :
  select_minus "password" (user_json u) =
  JsonObj [("name", JsonStr (u_name u)); ("email", JsonStr (u_email u))].
Proof. reflexivity. Qed.

(** C8.  An authenticated GET /users is answered 200 with one object per
    stored user, in order, made of that user's name and email only: no
    returned object has a [password] key. *)
Theorem users_listing_hides_passwords now req req' db :
  authenticateToken now req = Next req' →
  ∃ docs,
    run (get_users now req) db = (mkResponse 200 (JsonArr docs), db)
    ∧ docs = map (λ u, JsonObj [("name", JsonStr (u_name u));
                                ("email", JsonStr (u_email u))]) (users db)
    ∧ Forall (λ d, json_get "password" d = None ∧
                   "password" ∉ json_keys d) docs.
Proof.
  intros Hg. unfold get_users, guarded. rewrite Hg.
  eexists. split_and!.
  - unfold users_handler. rewrite run_try_await. simpl. reflexivity.
  - unfold User_find_minus_password. apply map_ext. intros u.
    apply select_minus_password_user.
  - unfold User_find_minus_password. apply Forall_map, Forall_true. intros u.
    rewrite select_minus_password_user. split; [reflexivity|].
    simpl. rewrite !not_elem_of_cons.
    split_and!; [done|done|apply not_elem_of_nil].
Qed.

(** *** Register and login *)

Lemma truthy_JStr s : s ≠ "" → truthy (JStr s) = true.
Proof. intros Hs. simpl. by rewrite bool_decide_eq_false_2. Qed.

Lemma required_string_JStr s : s ≠ "" → required_string (JStr s) = Some s.
Proof.
  intros Hs. unfold required_string.
  by rewrite castString_JStr, bool_decide_eq_false_2.
Qed.

Lemma User_save_Err name mail pass db err :
  fst (User_save name mail pass db) = Err err →
  snd (User_save name mail pass db) = db.
Proof.
  unfold User_save.
  destruct (required_string name), (required_string mail),
    (required_string pass); try done.
  by case_bool_decide.
Qed.

(** What POST /register does with three non-empty strings. *)
Lemma register_outcome req db n e p :
  field (body req) "name" = JStr n →
  field (body req) "email" = JStr e →
  field (body req) "password" = JStr p →
  n ≠ "" → e ≠ "" → p ≠ "" →
  run (post_register req) db =
  if bool_decide (Exists (λ u, u_email u = e) (users db))
  then (mkResponse 400 (message "User already exists"), db)
  else (mkResponse 201 (message "User registered successfully"),
        mkStore (users db ++ [mkUser n e p]) (products db)).
Proof.
  intros Hn He Hp Hn0 He0 Hp0. unfold post_register.
  rewrite Hn, He, Hp, !truthy_JStr by done. simpl negb. simpl orb.
  cbv iota. rewrite run_try_await. simpl exec.
  unfold User_findOne_email. rewrite castString_JStr.
  rewrite (bool_decide_ext _ _ (first_user_is_Some _ db)).
  case_bool_decide as Hex; [done|].
  rewrite run_try_await. simpl exec. unfold User_save.
  rewrite !required_string_JStr by done.
  by rewrite bool_decide_eq_false_2.
Qed.

(** What POST /login does with two non-empty strings. *)
Lemma login_outcome now req db e p :
  field (body req) "email" = JStr e →
  field (body req) "password" = JStr p →
  e ≠ "" → p ≠ "" →
  run (post_login now req) db =
  match first_user (λ u, u_email u = e ∧ u_password u = p) db with
  | None => (mkResponse 401 (message "Invalid email or password"), db)
  | Some u =>
      (mkResponse 200
         (JsonObj [("token", JsonStr (jwt_sign (u_email u) SECRET_KEY now))]),
       db)
  end.
Proof.
  intros He Hp He0 Hp0. unfold post_login.
  rewrite He, Hp, !truthy_JStr by done. simpl negb. simpl orb. cbv iota.
  rewrite run_try_await. simpl exec.
  unfold User_findOne_email_password. rewrite !castString_JStr.
  by destruct (first_user _ db).
Qed.

(** C4.  With a non-empty email [e]: on a store with no record under [e],
    Register with non-empty name and password answers 201 and appends the
    record made of the three fields as given; on a store with a record
    under [e], Register answers 400 'User already exists' and leaves the
    store as it was, whatever non-empty name and password come with it. *)
Theorem register_once req db n e p :
  field (body req) "name" = JStr n →
  field (body req) "email" = JStr e →
  field (body req) "password" = JStr p →
  n ≠ "" → e ≠ "" → p ≠ "" →
  (Forall (λ u, u_email u ≠ e) (users db) →
   run (post_register req) db =
   (mkResponse 201 (message "User registered successfully"),
    mkStore (users db ++ [mkUser n e p]) (products db)))
  ∧ (Exists (λ u, u_email u = e) (users db) →
     run (post_register req) db =
     (mkResponse 400 (message "User already exists"), db)).
Proof.
  intros Hn He Hp Hn0 He0 Hp0.
  rewrite (register_outcome req db n e p) by done. split.
  - intros Hfresh. rewrite bool_decide_eq_false_2; [done|].
    intros (u & Hin & Hu)%Exists_exists.
    rewrite Forall_forall in Hfresh. by apply (Hfresh u Hin).
  - intros Hex. by rewrite bool_decide_eq_true_2.
Qed.

(** C5.  Login with non-empty email and password answers 200 exactly when
    one stored record has that email and that password; the answer is 401
    otherwise, and the store is not touched. *)
Theorem login_iff_conjunctive_match now req db e p :
  field (body req) "email" = JStr e →
  field (body req) "password" = JStr p →
  e ≠ "" → p ≠ "" →
  let answer := run (post_login now req) db in
  (status (fst answer) = 200%Z ↔
   ∃ u, u ∈ users db ∧ u_email u = e ∧ u_password u = p)
  ∧ (status (fst answer) = 200%Z ∨ status (fst answer) = 401%Z)
  ∧ snd answer = db.
Proof.
  intros He Hp He0 Hp0 answer. subst answer.
  rewrite (login_outcome now req db e p) by done.
  destruct (first_user _ db) as [u|] eqn:Hfind; simpl.
  - apply first_user_Some in Hfind as [Hin Hu]. split_and!; [|by left|done].
    split; [|done]. intros _. by exists u.
  - apply first_user_None in Hfind. split_and!; [|by right|done].
    split; [done|]. intros (u & Hin & Hu).
    rewrite Forall_forall in Hfind. by destruct (Hfind u Hin).
Qed.

(** C3.  On any store, a login whose email is that of a stored record
    but whose password matches none of the records under that email, and
    a login whose email is that of no record, get the same answer: 401
    'Invalid email or password', store untouched. *)
Theorem login_failures_indistinguishable now1 now2 req1 req2 db e1 p1 e2 p2 :
  field (body req1) "email" = JStr e1 →
  field (body req1) "password" = JStr p1 →
  field (body req2) "email" = JStr e2 →
  field (body req2) "password" = JStr p2 →
  e1 ≠ "" → p1 ≠ "" → e2 ≠ "" → p2 ≠ "" →
  (∃ u, u ∈ users db ∧ u_email u = e1) →
  (∀ u, u ∈ users db → u_email u = e1 → u_password u ≠ p1) →
  (∀ u, u ∈ users db → u_email u ≠ e2) →
  let denied := mkResponse 401 (message "Invalid email or password") in
  run (post_login now1 req1) db = (denied, db)
  ∧ run (post_login now2 req2) db = (denied, db).
Proof.
  intros He1 Hp1 He2 Hp2 ? ? ? ? _ Hwrong Hunknown denied.
  rewrite (login_outcome now1 req1 db e1 p1), (login_outcome now2 req2 db e2 p2)
    by done.
  split.
  - destruct (first_user _ db) as [u|] eqn:Hfind; [|done].
    apply first_user_Some in Hfind as [Hin [Hu1 Hu2]].
    by destruct (Hwrong u Hin Hu1).
  - destruct (first_user _ db) as [u|] eqn:Hfind; [|done].
    apply first_user_Some in Hfind as [Hin [Hu1 Hu2]].
    by destruct (Hunknown u Hin).
Qed.

Lemma jwt_verify_sign mail now t :
  jwt_verify (Some (jwt_sign mail SECRET_KEY now)) SECRET_KEY t =
  if (now + 3600 <=? t)%Z then Err TokenExpired
  else Ok (mkClaims mail now (now + 3600)).
Proof.
  unfold jwt_verify, jwt_sign.
  rewrite bool_decide_eq_false_2 by apply jws_sign_nonempty.
  by rewrite jws_verify_sign.
Qed.

(** C2.  When Register of (name, email, password) is answered 201, a
    Login with that email and password on the resulting store is answered
    200 with a token, and verifying that token at any time before its
    expiry gives a payload whose email is the registered one. *)
Theorem register_login_verify now t reg log db n e p :
  field (body reg) "name" = JStr n →
  field (body reg) "email" = JStr e →
  field (body reg) "password" = JStr p →
  field (body log) "email" = JStr e →
  field (body log) "password" = JStr p →
  status (fst (run (post_register reg) db)) = 201%Z →
  (t < now + 3600)%Z →
  let db' := snd (run (post_register reg) db) in
  ∃ token claims,
    run (post_login now log) db' =
    (mkResponse 200 (JsonObj [("token", JsonStr token)]), db')
    ∧ jwt_verify (Some token) SECRET_KEY t = Ok claims
    ∧ email claims = e.
Proof.
  intros Hn He Hp Hle Hlp Hcreated Ht db'.
  assert (n ≠ "" ∧ e ≠ "" ∧ p ≠ "") as (Hn0 & He0 & Hp0).
  { split_and!; intros ->; revert Hcreated; unfold post_register;
      rewrite Hn, He, Hp; simpl; by repeat case_bool_decide. }
  subst db'. revert Hcreated.
  rewrite (register_outcome reg db n e p) by done.
  case_bool_decide as Hex; [done|]. intros _. simpl snd.
  rewrite (login_outcome now log _ e p) by done.
  destruct (first_user _ _) as [u|] eqn:Hfind.
  - apply first_user_Some in Hfind as [_ [Hu _]].
    eexists _, _. split; [reflexivity|].
    rewrite jwt_verify_sign.
    rewrite (proj2 (Z.leb_gt _ _)) by lia. by split.
  - apply first_user_None in Hfind. rewrite Forall_forall in Hfind.
    destruct (Hfind (mkUser n e p)); [|done].
    simpl. apply elem_of_app. right. apply list_elem_of_singleton. done.
Qed.

(** The token of a login answer was signed at [now] for the email of a
    stored record. *)
Lemma login_token now req db token :
  token_of (fst (run (post_login now req) db)) = Some token →
  ∃ u, u ∈ users db ∧ token = jwt_sign (u_email u) SECRET_KEY now.
Proof.
  unfold post_login.
  destruct (negb (truthy _) || negb (truthy _)); [done|].
  rewrite run_try_await. simpl exec.
  destruct (User_findOne_email_password _ _ db) as [[u|]|err] eqn:Hq; try done.
  intros [= <-]. exists u. split; [|done].
  unfold User_findOne_email_password in Hq.
  destruct (castString (field (body req) "email")),
    (castString (field (body req) "password")); try done.
  injection Hq as Hq. by apply first_user_Some in Hq as [Hin _].
Qed.

(** C7.  A token issued by Login at [now] carries a signature that is
    valid under the server's key and the expiry [now + 3600]; from that
    second on, verifying it fails with 'jwt expired'. *)
Theorem issued_token_expires now t req db token :
  token_of (fst (run (post_login now req) db)) = Some token →
  (now + 3600 ≤ t)%Z →
  (∃ claims, jws_verify token SECRET_KEY = Some claims
             ∧ exp claims = (now + 3600)%Z)
  ∧ jwt_verify (Some token) SECRET_KEY t = Err TokenExpired.
Proof.
  intros (u & _ & ->)%login_token Ht. split.
  - eexists. unfold jwt_sign. by rewrite jws_verify_sign.
  - rewrite jwt_verify_sign. by rewrite (proj2 (Z.leb_le _ _)).
Qed.

(** C1 does not hold of the code.  When the pre-check of Register,
    answered on store [db], finds no record, and the insert, answered on
    the store [db'] of that later moment, is refused by the unique index
    on email, Register answers 500 'Internal server error', where the
    claim asks for the 400 'User already exists' that the same handler
    gives when its pre-check finds the record; [db'] is left as it
    was. *)
Theorem register_lost_race req db db' :
  let name := field (body req) "name" in
  let mail := field (body req) "email" in
  let pass := field (body req) "password" in
  truthy name = true → truthy mail = true → truthy pass = true →
  User_findOne_email mail db = Ok None →
  fst (User_save name mail pass db') = Err DuplicateKey →
  run (fst (step (post_register req) db)) db' =
  (mkResponse 500 (message "Internal server error"), db').
Proof.
  intros name mail pass Hn He Hp Hcheck Hsave. unfold post_register.
  fold name mail pass. rewrite Hn, He, Hp. simpl negb. simpl orb. cbv iota.
  unfold try_await at 1. simpl step. rewrite Hcheck. simpl fst.
  rewrite run_try_await. simpl exec.
  pose proof (User_save_Err _ _ _ _ _ Hsave) as Hdb.
  destruct (User_save name mail pass db') as [r db'']. simpl in *.
  by subst.
Qed.

(** *** What every interleaving keeps *)

(** A property of the store that no Mongoose call breaks holds after any
    number of turns of any handlers. *)
Lemma schedule_invariant (I : Store → Prop) :
  (∀ A (op : Op A) db, I db → I (snd (exec op db))) →
  ∀ sched pool db, I db → I (snd (schedule sched pool db)).
Proof.
  intros Hexec sched. induction sched as [|i sched IH]; intros pool db HI.
  - done.
  - simpl. destruct (pool !! i) as [p|]; [|by apply IH].
    destruct p as [r|A op k]; simpl.
    + by apply IH.
    + specialize (Hexec A op db HI).
      destruct (exec op db) as [a db']. by apply IH.
Qed.

Lemma User_save_users name mail pass db :
  snd (User_save name mail pass db) = db
  ∨ ∃ n e p,
      required_string name = Some n ∧ required_string mail = Some e
      ∧ required_string pass = Some p
      ∧ ¬ Exists (λ u, u_email u = e) (users db)
      ∧ snd (User_save name mail pass db) =
        mkStore (users db ++ [mkUser n e p]) (products db).
Proof.
  unfold User_save.
  destruct (required_string name) as [n|]; [|by left].
  destruct (required_string mail) as [e|]; [|by left].
  destruct (required_string pass) as [p|]; [|by left].
  case_bool_decide as Hex; [by left|].
  right. by exists n, e, p.
Qed.

Lemma Product_save_products name price addedBy db :
  snd (Product_save name price addedBy db) = db
  ∨ ∃ n x,
      required_string name = Some n ∧ castNumber price = Some x
      ∧ addedBy ≠ ""
      ∧ snd (Product_save name price addedBy db) =
        mkStore (users db) (products db ++ [mkProduct n x addedBy]).
Proof.
  unfold Product_save.
  destruct (required_string name) as [n|]; [|by left].
  destruct (castNumber price) as [x|]; [|by left].
  case_bool_decide as Hadded; [by left|].
  right. by exists n, x.
Qed.

Lemma required_string_nonempty v s : required_string v = Some s → s ≠ "".
Proof.
  unfold required_string. destruct (castString v) as [s'|]; [|done].
  case_bool_decide; [done|]. by intros [= <-].
Qed.

(** What one call can do to the store: nothing, one more user whose email
    was not there, or one more product. *)
Lemma exec_store {A} (op : Op A) db :
  snd (exec op db) = db
  ∨ (∃ u, u_name u ≠ "" ∧ u_email u ≠ "" ∧ u_password u ≠ ""
          ∧ ¬ Exists (λ v, u_email v = u_email u) (users db)
          ∧ snd (exec op db) = mkStore (users db ++ [u]) (products db))
  ∨ (∃ p, p_name p ≠ "" ∧ p_addedBy p ≠ ""
          ∧ snd (exec op db) = mkStore (users db) (products db ++ [p])).
Proof.
  destruct op; simpl; try by left.
  - destruct (User_save_users name mail pass db)
      as [->|(n & e & p & Hn & He & Hp & Hfresh & ->)]; [by left|].
    right. left. exists (mkUser n e p).
    split_and!; eauto using required_string_nonempty.
  - destruct (Product_save_products name price addedBy db)
      as [->|(n & x & Hn & Hx & Hadded & ->)]; [by left|].
    right. right. exists (mkProduct n x addedBy).
    split_and!; eauto using required_string_nonempty.
Qed.

(** X1.  No two stored users share an email, whatever handlers run and
    however their awaits interleave: if the emails of the store are
    pairwise distinct before, they are after. *)
Theorem schedule_keeps_emails_unique sched pool db :
  NoDup (map u_email (users db)) →
  NoDup (map u_email (users (snd (schedule sched pool db)))).
Proof.
  apply (schedule_invariant (λ s, NoDup (map u_email (users s)))).
  intros A op s Hs.
  destruct (exec_store op s)
    as [->|[(u & _ & _ & _ & Hfresh & ->)|(p & _ & _ & ->)]]; [done| |done].
  simpl. rewrite map_app. simpl. apply NoDup_app. split_and!; [done| |].
  - intros e Hin ->%list_elem_of_singleton. apply Hfresh.
    apply list_elem_of_fmap in Hin as (v & Hv & Hin).
    apply Exists_exists. by exists v.
  - apply NoDup_singleton.
Qed.

(** X2.  Every stored user keeps a non-empty name, email and password and
    every stored product a non-empty name and [addedBy], whatever handlers
    run and however they interleave. *)
Theorem schedule_keeps_required_fields sched pool db :
  let filled s :=
    Forall (λ u, u_name u ≠ "" ∧ u_email u ≠ "" ∧ u_password u ≠ "")
      (users s)
    ∧ Forall (λ p, p_name p ≠ "" ∧ p_addedBy p ≠ "") (products s) in
  filled db → filled (snd (schedule sched pool db)).
Proof.
  intros filled. apply (schedule_invariant filled).
  intros A op s [Hu Hp]. unfold filled.
  destruct (exec_store op s)
    as [->|[(u & ? & ? & ? & _ & ->)|(p & ? & ? & ->)]]; [done| |]; simpl.
  - split; [|done]. apply Forall_app. split; [done|]. by apply Forall_singleton.
  - split; [done|]. apply Forall_app. split; [done|]. by apply Forall_singleton.
Qed.

(** X3.  The store only grows: after any turns of any handlers the users
    and the products that were there are still there, unchanged and in
    the same order, followed by the documents added since. *)
Theorem schedule_only_appends sched pool db :
  let db' := snd (schedule sched pool db) in
  ∃ new_users new_products,
    users db' = (users db ++ new_users)%list
    ∧ products db' = (products db ++ new_products)%list.
Proof.
  apply (schedule_invariant
           (λ s, ∃ us ps, users s = (users db ++ us)%list
                          ∧ products s = (products db ++ ps)%list)).
  - intros A op s (us & ps & Hus & Hps).
    destruct (exec_store op s)
      as [->|[(u & _ & _ & _ & _ & ->)|(p & _ & _ & ->)]]; simpl.
    + by exists us, ps.
    + exists (us ++ [u])%list, ps. by rewrite Hus, (assoc_L (++)).
    + exists us, (ps ++ [p])%list. by rewrite Hps, (assoc_L (++)).
  - exists [], []. by rewrite !app_nil_r.
Qed.

(** *** Register and login on any body *)

Lemma required_string_cast v s :
  required_string v = Some s → castString v = Some s.
Proof.
  unfold required_string. destruct (castString v) as [s'|]; [|done].
  case_bool_decide; [done|]. by intros [= <-].
Qed.

(** X4.  Whatever the body holds, Register either answers 201 and adds
    exactly one user, made of the three fields as cast to strings, under
    an email no stored user had; or it answers 400 or 500 and leaves the
    store as it was.  Products are never touched. *)
Theorem register_store_effect req db :
  let answer := run (post_register req) db in
  (status (fst answer) = 201%Z
   ∧ ∃ u, snd answer = mkStore (users db ++ [u]) (products db)
          ∧ castString (field (body req) "name") = Some (u_name u)
          ∧ castString (field (body req) "email") = Some (u_email u)
          ∧ castString (field (body req) "password") = Some (u_password u)
          ∧ ¬ Exists (λ v, u_email v = u_email u) (users db))
  ∨ ((status (fst answer) = 400%Z ∨ status (fst answer) = 500%Z)
     ∧ snd answer = db).
Proof.
  intros answer. subst answer. unfold post_register.
  destruct (negb (truthy _) || negb (truthy _) || negb (truthy _));
    [right; simpl; auto|].
  rewrite run_try_await. simpl exec.
  destruct (User_findOne_email _ db) as [[v|]|err]; simpl fst; simpl snd;
    [right; simpl; auto| |right; simpl; auto].
  unfold User_save.
  destruct (required_string (field (body req) "name")) as [n|] eqn:Hn;
    [|right; simpl; auto].
  destruct (required_string (field (body req) "email")) as [e|] eqn:He;
    [|right; simpl; auto].
  destruct (required_string (field (body req) "password")) as [p|] eqn:Hp;
    [|right; simpl; auto].
  case_bool_decide as Hex; [right; simpl; auto|].
  left. simpl. split; [done|]. exists (mkUser n e p).
  split_and!; eauto using required_string_cast.
Qed.

(** X5.  Login and the two listings never write: whatever the request
    and whatever they answer, the store after is the store before. *)
Theorem reads_leave_store now req db :
  snd (run (post_login now req) db) = db
  ∧ snd (run (get_products now req) db) = db
  ∧ snd (run (get_users now req) db) = db.
Proof.
  split_and!.
  - unfold post_login.
    destruct (negb (truthy _) || negb (truthy _)); [done|].
    rewrite run_try_await. simpl exec.
    by destruct (User_findOne_email_password _ _ db) as [[u|]|err].
  - unfold get_products, guarded.
    by destruct (authenticateToken now req).
  - unfold get_users, guarded.
    by destruct (authenticateToken now req).
Qed.

(** X6.  Login answers 400 exactly when the email or the password of the
    body is falsy (missing, null, empty, 0 or false); in every other case
    it answers 200, 401 or 500. *)
Theorem login_bad_request_iff now req db :
  let code := status (fst (run (post_login now req) db)) in
  (code = 400%Z ↔
   truthy (field (body req) "email") = false
   ∨ truthy (field (body req) "password") = false)
  ∧ (code = 200%Z ∨ code = 400%Z ∨ code = 401%Z ∨ code = 500%Z).
Proof.
  intros code. subst code. unfold post_login.
  destruct (truthy (field (body req) "email")) eqn:He;
    [|simpl; split; [split; auto|auto]].
  destruct (truthy (field (body req) "password")) eqn:Hp;
    [|simpl; split; [split; auto|auto]].
  simpl negb. simpl orb. cbv iota. rewrite run_try_await. simpl exec.
  destruct (User_findOne_email_password _ _ db) as [[u|]|err]; simpl;
    (split; [split; [done|by intros [?|?]]|auto]).
Qed.

(** X7.  Register answers 400 'Name, email, and password are required'
    exactly when one of the three fields of the body is falsy. *)
Theorem register_bad_request_iff req db :
  fst (run (post_register req) db) =
  mkResponse 400 (message "Name, email, and password are required")
  ↔ truthy (field (body req) "name") = false
    ∨ truthy (field (body req) "email") = false
    ∨ truthy (field (body req) "password") = false.
Proof.
  unfold post_register.
  destruct (truthy (field (body req) "name")) eqn:Hn; [|simpl; split; auto].
  destruct (truthy (field (body req) "email")) eqn:He; [|simpl; split; auto].
  destruct (truthy (field (body req) "password")) eqn:Hp;
    [|simpl; split; auto].
  simpl negb. simpl orb. cbv iota. rewrite run_try_await. simpl exec.
  split; [|by intros [?|[?|?]]].
  destruct (User_findOne_email _ db) as [[v|]|err]; simpl fst; try done.
  by destruct (User_save _ _ _ db) as [[[]|err] db'].
Qed.


(** *** More on the header and the guard *)

Lemma split_not_nil sep s : split sep s ≠ [].
Proof.
  destruct s as [|c s]; simpl; [done|].
  case_bool_decide; [done|]. by destruct (split sep s).
Qed.

(** X9.  [split] loses nothing and cuts at every separator: the pieces
    joined by the separator are the string again, and no piece holds the
    separator. *)
Theorem split_join sep s :
  String.concat (String sep EmptyString) (split sep s) = s
  ∧ Forall (λ piece, free_of sep piece = true) (split sep s).
Proof.
  induction s as [|c s [IHjoin IHfree]]; simpl.
  - split; [done|]. by apply Forall_singleton.
  - case_bool_decide as Hc.
    + subst c. split; [|by apply Forall_cons].
      pose proof (split_not_nil sep s) as Hne.
      destruct (split sep s) as [|piece pieces]; [done|].
      simpl in *. by rewrite IHjoin.
    + destruct (split sep s) as [|piece pieces] eqn:Hs;
        [by destruct (split_not_nil sep s)|].
      apply Forall_cons in IHfree as [Hpiece Hpieces]. split.
      * destruct pieces as [|piece' pieces]; simpl in *; by rewrite <-IHjoin.
      * apply Forall_cons. split; [|done]. simpl.
        by rewrite bool_decide_eq_false_2, Hpiece.
Qed.

Lemma header_nonempty scheme rest : scheme +:+ " " +:+ rest ≠ "".
Proof. by destruct scheme. Qed.

Lemma split_second_trailing scheme token rest :
  free_of " " scheme = true → free_of " " token = true →
  split " " (scheme +:+ " " +:+ token +:+ " " +:+ rest) !! 1%nat = Some token.
Proof.
  intros Hs Ht.
  change (" " +:+ token +:+ " " +:+ rest)
    with (String " " (token +:+ String " " rest)).
  by rewrite (split_app _ _ _ Hs), (split_app _ _ _ Ht).
Qed.

Lemma split_second_empty scheme rest :
  free_of " " scheme = true →
  split " " (scheme +:+ "  " +:+ rest) !! 1%nat = Some "".
Proof.
  intros Hs.
  change ("  " +:+ rest) with (String " " (String " " rest)).
  by rewrite (split_app _ _ _ Hs).
Qed.

(** X10.  Only the second piece of the header counts: whatever follows a
    second space is ignored, so [scheme token anything] is accepted when
    [token] verifies. *)
Theorem guard_ignores_trailing now req scheme token rest claims :
  headers req !! "authorization" =
  Some (scheme +:+ " " +:+ token +:+ " " +:+ rest) →
  free_of " " scheme = true →
  free_of " " token = true →
  jwt_verify (Some token) SECRET_KEY now = Ok claims →
  authenticateToken now req =
  Next (mkRequest (headers req) (body req) (Some claims)).
Proof.
  intros Hh Hs Ht Hv. unfold authenticateToken. rewrite Hh. simpl.
  rewrite bool_decide_eq_false_2 by apply header_nonempty. simpl.
  by rewrite (split_second_trailing _ _ _ Hs Ht), Hv.
Qed.

(** X11.  Two spaces after the scheme word make the token the empty
    string: the request is answered 403 'Invalid token' whatever follows,
    a valid token included. *)
Theorem guard_double_space_rejected now req scheme rest :
  headers req !! "authorization" = Some (scheme +:+ "  " +:+ rest) →
  free_of " " scheme = true →
  ∀ handler,
    guarded now handler req =
    Respond (mkResponse 403 (message "Invalid token")).
Proof.
  intros Hh Hs handler. unfold guarded, authenticateToken. rewrite Hh.
  simpl. rewrite bool_decide_eq_false_2 by (by destruct scheme). simpl.
  by rewrite (split_second_empty _ _ Hs).
Qed.

(** X12.  A token handed out by Login at [now], sent back as
    [scheme token], opens the guard for every clock reading before
    [now + 3600], with the email of a stored user as [req.user.email];
    from [now + 3600] on it is answered 403 'Invalid token'. *)
Theorem login_token_at_guard now t login req db token scheme :
  token_of (fst (run (post_login now login) db)) = Some token →
  headers req !! "authorization" = Some (scheme +:+ " " +:+ token) →
  free_of " " scheme = true →
  free_of " " token = true →
  ((t < now + 3600)%Z →
   ∃ u, u ∈ users db
        ∧ authenticateToken t req =
          Next (mkRequest (headers req) (body req)
                  (Some (mkClaims (u_email u) now (now + 3600)))))
  ∧ ((now + 3600 ≤ t)%Z →
     authenticateToken t req =
     Reject (mkResponse 403 (message "Invalid token"))).
Proof.
  intros (u & Hin & ->)%login_token Hh Hs Ht.
  unfold authenticateToken. rewrite Hh. simpl.
  rewrite bool_decide_eq_false_2 by apply header_nonempty. simpl.
  rewrite (split_second _ _ Hs Ht), jwt_verify_sign. split.
  - intros Hlt. exists u. split; [done|].
    by rewrite (proj2 (Z.leb_gt _ _)) by lia.
  - intros Hge. by rewrite (proj2 (Z.leb_le _ _)).
Qed.

(** X13.  When [JWT_SECRET] is not set, or set to the empty string, the
    key is the one written in the source: a token signed under
    'your_secret_key' for any email, registered or not, passes the guard
    until it expires. *)
Theorem default_key_accepted now req scheme mail issued expiry :
  JWT_SECRET = None ∨ JWT_SECRET = Some "" →
  let token := jws_sign (mkClaims mail issued expiry) "your_secret_key" in
  headers req !! "authorization" = Some (scheme +:+ " " +:+ token) →
  free_of " " scheme = true →
  free_of " " token = true →
  (now < expiry)%Z →
  authenticateToken now req =
  Next (mkRequest (headers req) (body req)
          (Some (mkClaims mail issued expiry))).
Proof.
  intros Henv token Hh Hs Ht Hlt.
  assert (SECRET_KEY = "your_secret_key") as Hkey
    by (unfold SECRET_KEY; by destruct Henv as [-> | ->]).
  unfold authenticateToken. rewrite Hh. simpl.
  rewrite bool_decide_eq_false_2 by apply header_nonempty. simpl.
  rewrite (split_second _ _ Hs Ht), Hkey. unfold jwt_verify, token.
  rewrite bool_decide_eq_false_2 by apply jws_sign_nonempty.
  rewrite jws_verify_sign. simpl.
  by rewrite (proj2 (Z.leb_gt _ _)) by lia.
Qed.

(** *** Products *)

Lemma product_handler_save hdrs fields claims db :
  truthy (field fields "name") = true →
  truthy (field fields "price") = true →
  run (product_handler (mkRequest hdrs fields (Some claims))) db =
  match Product_save (field fields "name") (field fields "price")
          (email claims) db with
  | (Ok doc, db') =>
      (mkResponse 201
         (JsonObj [("message", JsonStr "Product added successfully");
                   ("product", product_json doc)]), db')
  | (Err _, db') =>
      (mkResponse 500 (message "Internal server error"), db')
  end.
Proof.
  intros Hn Hp. unfold product_handler. simpl body. rewrite Hn, Hp.
  simpl negb. simpl orb. cbv iota. simpl user. cbv iota.
  rewrite run_try_await. simpl exec.
  by destruct (Product_save _ _ _ db) as [[doc|err] db'].
Qed.

(** X14.  An authenticated POST /product with a name and a price that
    pass the presence check and cast to their paths is answered 201 and
    appends one product whose [addedBy] is the email of the token: the
    body has no say in it, an [addedBy] field there is not read. *)
Theorem product_created_for_caller now req db claims n x :
  authenticateToken now req =
  Next (mkRequest (headers req) (body req) (Some claims)) →
  truthy (field (body req) "name") = true →
  truthy (field (body req) "price") = true →
  required_string (field (body req) "name") = Some n →
  castNumber (field (body req) "price") = Some x →
  email claims ≠ "" →
  let doc := mkProduct n x (email claims) in
  run (post_product now req) db =
  (mkResponse 201
     (JsonObj [("message", JsonStr "Product added successfully");
               ("product", product_json doc)]),
   mkStore (users db) (products db ++ [doc])).
Proof.
  intros Hg Hn Hp Hname Hprice Hmail doc.
  unfold post_product, guarded. rewrite Hg.
  rewrite product_handler_save by done. unfold Product_save.
  by rewrite Hname, Hprice, bool_decide_eq_false_2.
Qed.

(** X15.  An authenticated POST /product whose name and price pass the
    presence check but whose price cannot be cast to a number, or whose
    name cannot be cast to a non-empty string, is answered 500 'Internal
    server error', not 400, and nothing is stored. *)
Theorem product_cast_failure_is_500 now req db claims :
  authenticateToken now req =
  Next (mkRequest (headers req) (body req) (Some claims)) →
  truthy (field (body req) "name") = true →
  truthy (field (body req) "price") = true →
  castNumber (field (body req) "price") = None
  ∨ required_string (field (body req) "name") = None →
  run (post_product now req) db =
  (mkResponse 500 (message "Internal server error"), db).
Proof.
  intros Hg Hn Hp Hcast.
  unfold post_product, guarded. rewrite Hg.
  rewrite product_handler_save by done. unfold Product_save.
  destruct Hcast as [-> | ->]; [|done].
  by destruct (required_string _).
Qed.

(** X16.  A product that was just created is listed: after a POST
    /product answered 201, GET /products by any authenticated caller
    answers 200 with the products that were there, in order, followed by
    the new one with the creator's email as [addedBy]. *)
Theorem product_then_listed now1 now2 req1 req2 req2' db claims n x :
  authenticateToken now1 req1 =
  Next (mkRequest (headers req1) (body req1) (Some claims)) →
  truthy (field (body req1) "name") = true →
  truthy (field (body req1) "price") = true →
  required_string (field (body req1) "name") = Some n →
  castNumber (field (body req1) "price") = Some x →
  email claims ≠ "" →
  authenticateToken now2 req2 = Next req2' →
  let db' := snd (run (post_product now1 req1) db) in
  fst (run (get_products now2 req2) db') =
  mkResponse 200
    (JsonArr (map product_json (products db)
              ++ [product_json (mkProduct n x (email claims))])).
Proof.
  intros Hg Hn Hp Hname Hprice Hmail Hg2 db'. subst db'.
  unfold post_product, guarded. rewrite Hg.
  rewrite product_handler_save by done. unfold Product_save.
  rewrite Hname, Hprice, bool_decide_eq_false_2 by done. simpl snd.
  unfold get_products, guarded. rewrite Hg2.
  unfold products_handler. rewrite run_try_await. simpl.
  by rewrite map_app.
Qed.

(** X17.  A user that was just registered is listed, without the
    password: after a Register answered 201, GET /users by any
    authenticated caller answers 200 with the users that were there, in
    order, followed by the name and email just registered. *)
Theorem register_then_listed now reg req req' db n e p :
  field (body reg) "name" = JStr n →
  field (body reg) "email" = JStr e →
  field (body reg) "password" = JStr p →
  status (fst (run (post_register reg) db)) = 201%Z →
  authenticateToken now req = Next req' →
  let db' := snd (run (post_register reg) db) in
  let public u := JsonObj [("name", JsonStr (u_name u));
                           ("email", JsonStr (u_email u))] in
  fst (run (get_users now req) db') =
  mkResponse 200
    (JsonArr (map public (users db)
              ++ [JsonObj [("name", JsonStr n); ("email", JsonStr e)]])).
Proof.
  intros Hn He Hp Hcreated Hg db' public.
  assert (n ≠ "" ∧ e ≠ "" ∧ p ≠ "") as (Hn0 & He0 & Hp0).
  { split_and!; intros ->; revert Hcreated; unfold post_register;
      rewrite Hn, He, Hp; simpl; by repeat case_bool_decide. }
  subst db'. revert Hcreated.
  rewrite (register_outcome reg db n e p) by done.
  case_bool_decide as Hex; [done|]. intros _. simpl snd.
  unfold get_users, guarded. rewrite Hg.
  unfold users_handler. rewrite run_try_await. simpl.
  unfold User_find_minus_password. simpl. rewrite map_app. simpl.
  do 3 f_equal.
Qed.

(** *** Registrations racing for one email *)

Lemma post_register_Respond req r :
  post_register req = Respond r → status r = 400%Z.
Proof.
  unfold post_register.
  destruct (negb (truthy _) || negb (truthy _) || negb (truthy _)); [|done].
  by intros [= <-].
Qed.

(** One turn of a registration for [e]: it stays a registration for [e],
    [e] stays taken if it was, and an answer 201 appears only where [e]
    was free and is taken afterwards. *)
Lemma step_registering e p db :
  registering e p →
  registering e (fst (step p db))
  ∧ (taken e db → taken e (snd (step p db)))
  ∧ (∀ r, fst (step p db) = Respond r → status r = 201%Z →
          p = Respond r ∨ (¬ taken e db ∧ taken e (snd (step p db)))).
Proof.
  intros [req He|name pass|r0].
  - unfold post_register. rewrite He.
    destruct (negb (truthy _) || negb (truthy _) || negb (truthy _)).
    { simpl. split_and!; [constructor|done|]. by intros r [= <-]. }
    unfold try_await at 1. simpl step. unfold User_findOne_email.
    destruct (castString (JStr e)) as [e'|]; simpl.
    + case_bool_decide.
      * split_and!; [constructor|done|]. by intros r [= <-].
      * split_and!; [constructor|done|done].
    + split_and!; [constructor|done|]. by intros r [= <-].
  - unfold try_await. simpl step. unfold User_save.
    destruct (required_string name) as [n|];
      [|simpl; split_and!; [constructor|done|by intros r [= <-]]].
    destruct (required_string (JStr e)) as [e'|] eqn:He;
      [|simpl; split_and!; [constructor|done|by intros r [= <-]]].
    destruct (required_string pass) as [p'|];
      [|simpl; split_and!; [constructor|done|by intros r [= <-]]].
    apply required_string_cast in He. rewrite castString_JStr in He.
    injection He as <-.
    case_bool_decide as Hex; simpl.
    + split_and!; [constructor|done|]. by intros r [= <-].
    + assert (taken e (mkStore (users db ++ [mkUser n e p']) (products db)))
        as Hnow.
      { unfold taken. simpl. apply Exists_app. right. by apply Exists_cons_hd. }
      split_and!; [constructor|done|]. intros r _ _. by right.
  - simpl. split_and!; [constructor|done|]. intros r [= <-] _. by left.
Qed.

Lemma schedule_one_winner e sched pool db :
  one_winner e pool db →
  one_winner e (fst (schedule sched pool db)) (snd (schedule sched pool db)).
Proof.
  revert pool db. induction sched as [|i sched IH]; intros pool db Hinv.
  - done.
  - simpl. destruct (pool !! i) as [p|] eqn:Hi; [|by apply IH].
    destruct Hinv as (Hreg & Hone & Htaken).
    assert (registering e p) as Hp
      by (rewrite Forall_lookup in Hreg; by eapply Hreg).
    destruct (step_registering e p db Hp) as (Hp' & Hmono & Hnew).
    destruct (step p db) as [p' db'] eqn:Hstep. simpl in Hp', Hmono, Hnew.
    assert (i < length pool)%nat as Hlen by by eapply lookup_lt_Some.
    assert (∀ a r, <[i := p']> pool !! a = Some (Respond r) →
                   status r = 201%Z →
                   taken e db'
                   ∧ (pool !! a = Some (Respond r)
                      ∨ (a = i ∧ ¬ taken e db))) as Hcase.
    { intros a r Ha Hr. destruct (decide (a = i)) as [->|Hne].
      - rewrite list_lookup_insert_eq in Ha by done. injection Ha as ->.
        destruct (Hnew r eq_refl Hr) as [-> | [Hfree Hnow]].
        + split; [|by left]. apply Hmono. by eapply Htaken.
        + split; [done|]. by right.
      - rewrite list_lookup_insert_ne in Ha by done.
        split; [|by left]. apply Hmono. by eapply Htaken. }
    apply IH. split_and!.
    + by apply Forall_insert.
    + intros a b ra rb Ha Hb Hra Hrb.
      destruct (Hcase a ra Ha Hra) as [_ [Ha'|[-> Hfree]]],
               (Hcase b rb Hb Hrb) as [_ [Hb'|[-> Hfree']]].
      * by eapply Hone.
      * destruct Hfree'. by eapply Htaken.
      * destruct Hfree. by eapply Htaken.
      * done.
    + intros a r Ha Hr. by destruct (Hcase a r Ha Hr).
Qed.

(** X18.  Of any number of registrations for one email in flight
    together, at most one is answered 201, however their awaits
    interleave and whatever the store holds. *)
Theorem concurrent_registrations_one_winner e reqs sched db :
  Forall (λ req, field (body req) "email" = JStr e) reqs →
  let pool := fst (schedule sched (map post_register reqs) db) in
  ∀ i j ri rj,
    pool !! i = Some (Respond ri) → pool !! j = Some (Respond rj) →
    status ri = 201%Z → status rj = 201%Z → i = j.
Proof.
  intros Hreqs pool.
  assert (one_winner e (map post_register reqs) db) as Hinit.
  { assert (∀ i r, map post_register reqs !! i = Some (Respond r) →
                   status r = 400%Z) as Hnone.
    { intros i r Hi. apply list_lookup_fmap_Some in Hi as (req & Hr & _).
      symmetry in Hr. by apply post_register_Respond in Hr. }
    split_and!.
    - apply Forall_fmap. eapply Forall_impl; [exact Hreqs|].
      intros req He. by constructor.
    - intros i j ri rj Hi _ Hri _. apply Hnone in Hi. lia.
    - intros i r Hi Hr. apply Hnone in Hi. lia. }
  by destruct (schedule_one_winner e sched _ db Hinit) as (_ & Hone & _).
Qed.

(** *** Later requests, after anything else has run *)

Lemma exec_users_kept {A} (op : Op A) db u :
  u ∈ users db → u ∈ users (snd (exec op db)).
Proof.
  intros Hin.
  destruct (exec_store op db)
    as [->|[(v & _ & _ & _ & _ & ->)|(q & _ & _ & ->)]]; [done| |done].
  simpl. apply elem_of_app. by left.
Qed.

(** X19.  An email once registered stays taken: after any turns of any
    handlers, a Register for it with non-empty name and password is
    answered 400 'User already exists' and changes nothing. *)
Theorem registered_email_stays_taken e req sched pool db n p :
  taken e db →
  field (body req) "name" = JStr n →
  field (body req) "email" = JStr e →
  field (body req) "password" = JStr p →
  n ≠ "" → e ≠ "" → p ≠ "" →
  let db' := snd (schedule sched pool db) in
  run (post_register req) db' =
  (mkResponse 400 (message "User already exists"), db').
Proof.
  intros Htaken Hn He Hp Hn0 He0 Hp0 db'.
  assert (taken e db') as Hstill.
  { apply (schedule_invariant (taken e)); [|done].
    intros A op s (u & Hin & Hu)%Exists_exists.
    apply Exists_exists. exists u. split; [|done]. by apply exec_users_kept. }
  rewrite (register_outcome req db' n e p) by done.
  by rewrite bool_decide_eq_true_2.
Qed.

(** X20.  Credentials that are stored keep working: after any turns of
    any handlers, a Login with the email and password of a stored record
    is answered 200 with a token issued for that email. *)
Theorem stored_credentials_keep_working now e p log sched pool db :
  (∃ u, u ∈ users db ∧ u_email u = e ∧ u_password u = p) →
  field (body log) "email" = JStr e →
  field (body log) "password" = JStr p →
  e ≠ "" → p ≠ "" →
  let db' := snd (schedule sched pool db) in
  run (post_login now log) db' =
  (mkResponse 200 (JsonObj [("token", JsonStr (jwt_sign e SECRET_KEY now))]),
   db').
Proof.
  intros Hstored He Hp He0 Hp0 db'.
  assert (∃ u, u ∈ users db' ∧ u_email u = e ∧ u_password u = p)
    as (u & Hin & Hu).
  { apply (schedule_invariant
             (λ s, ∃ u, u ∈ users s ∧ u_email u = e ∧ u_password u = p));
      [|done].
    intros A op s (u & Hin & Hu). exists u. split; [|done].
    by apply exec_users_kept. }
  rewrite (login_outcome now log db' e p) by done.
  destruct (first_user _ db') as [v|] eqn:Hfind.
  - apply first_user_Some in Hfind as [_ [-> _]]. done.
  - apply first_user_None in Hfind. rewrite Forall_forall in Hfind.
    by destruct (Hfind u Hin).
Qed.

End Service.

(** ** The stand-in meets the assumptions made on the libraries *)

Module PlainFacts.

Lemma dec_pos_enc p rest :
  Plain.dec_pos (Plain.enc_pos p +:+ rest) = Some (p, rest).
Proof.
  induction p as [q IH|q IH|]; simpl; [by rewrite IH..|done].
Qed.

Lemma dec_Z_enc z rest :
  Plain.dec_Z (Plain.enc_Z z +:+ rest) = Some (z, rest).
Proof. destruct z as [|q|q]; simpl; [done|by rewrite dec_pos_enc..]. Qed.

Lemma strip_app key rest : Plain.strip key (key +:+ rest) = Some rest.
Proof.
  induction key as [|a key IH]; simpl; [done|].
  by rewrite bool_decide_eq_true_2.
Qed.

Lemma plain_verify_sign c key :
  Plain.jws_verify (Plain.jws_sign c key) key = Some c.
Proof.
  unfold Plain.jws_verify, Plain.jws_sign.
  rewrite strip_app. simpl. rewrite dec_Z_enc. simpl.
  rewrite dec_Z_enc. simpl. by destruct c.
Qed.

Lemma plain_sign_nonempty c key : Plain.jws_sign c key ≠ "".
Proof.
  unfold Plain.jws_sign.
  destruct key; [|done]. by destruct (iat c).
Qed.

Lemma plain_castString_JStr s : Plain.castString (JStr s) = Some s.
Proof. reflexivity. Qed.

End PlainFacts.

(** ** The properties on the sample data *)

(** The example of the specification, end to end: Ann registers, Bob is
    refused the same address, Ann logs in and lists the products with her
    token; without a header the listing is refused. *)
Lemma specification_example :
  let run := run Plain.castString Plain.castNumber in
  let s1 := run (post_register (Sample.register_request "Ann" "a@x.com" "pw1"))
              Sample.empty in
  let s2 := run (post_register (Sample.register_request "Bob" "a@x.com" "pw2"))
              (snd s1) in
  let s3 := run (post_login None Plain.jws_sign 1000
                   (Sample.login_request "a@x.com" "pw1")) (snd s2) in
  let s4 := run (get_products None Plain.jws_verify 1001
                   (Sample.with_header ("Bearer " +:+ Sample.ann_token) ∅))
              (snd s3) in
  let s5 := run (get_products None Plain.jws_verify 1001 (mkRequest ∅ ∅ None))
              (snd s4) in
  status (fst s1) = 201%Z
  ∧ fst s2 = mkResponse 400 (message "User already exists")
  ∧ fst s3 = mkResponse 200 (JsonObj [("token", JsonStr Sample.ann_token)])
  ∧ fst s4 = mkResponse 200 (JsonArr [])
  ∧ fst s5 = mkResponse 401 (message "Token required")
  ∧ snd s5 = Sample.with_ann.
Proof. vm_compute. by split_and!. Qed.

(** The lookup of Login is one conjunctive match: an email of one record
    with the password of another is refused. *)
Lemma login_mixed_records_refused :
  run Plain.castString Plain.castNumber
    (post_login None Plain.jws_sign 1000
       (Sample.login_request "a@x.com" "pw2"))
    (mkStore [Sample.ann; mkUser "Bob" "b@x.com" "pw2"] []) =
  (mkResponse 401 (message "Invalid email or password"),
   mkStore [Sample.ann; mkUser "Bob" "b@x.com" "pw2"] []).
Proof. vm_compute. reflexivity. Qed.

(** Two registrations for the same address in flight together: both
    pre-checks are answered before either insert.  Bob's pre-check finds
    no record, his insert is refused by the unique index, and he is
    answered 500, not 400 'User already exists'. *)
Lemma register_race_counterexample :
  let ann := post_register (Sample.register_request "Ann" "a@x.com" "pw1") in
  let bob := post_register (Sample.register_request "Bob" "a@x.com" "pw2") in
  User_findOne_email Plain.castString (JStr "a@x.com") Sample.empty = Ok None
  ∧ fst (User_save Plain.castString (JStr "Bob") (JStr "a@x.com") (JStr "pw2")
           Sample.with_ann) = Err DuplicateKey
  ∧ schedule Plain.castString Plain.castNumber [0; 1; 0; 1]%nat [ann; bob]
      Sample.empty =
    ([Respond (mkResponse 201 (message "User registered successfully"));
      Respond (mkResponse 500 (message "Internal server error"))],
     Sample.with_ann)
  ∧ mkResponse 500 (message "Internal server error") ≠
    mkResponse 400 (message "User already exists").
Proof.
  split_and!; [vm_compute; reflexivity..|discriminate].
Qed.

Lemma register_lost_race_witness :
  run Plain.castString Plain.castNumber
    (fst (step Plain.castString Plain.castNumber
            (post_register (Sample.register_request "Bob" "a@x.com" "pw2"))
            Sample.empty))
    Sample.with_ann =
  (mkResponse 500 (message "Internal server error"), Sample.with_ann).
Proof.
  apply (register_lost_race Plain.castString Plain.castNumber
           (Sample.register_request "Bob" "a@x.com" "pw2")
           Sample.empty Sample.with_ann);
    vm_compute; reflexivity.
Defined.

Lemma register_login_verify_witness :
  ∃ token claims,
    run Plain.castString Plain.castNumber
      (post_login None Plain.jws_sign 1000
         (Sample.login_request "a@x.com" "pw1"))
      Sample.with_ann =
    (mkResponse 200 (JsonObj [("token", JsonStr token)]), Sample.with_ann)
    ∧ jwt_verify Plain.jws_verify (Some token) (SECRET_KEY None) 1000 =
      Ok claims
    ∧ email claims = "a@x.com".
Proof.
  apply (register_login_verify None Plain.jws_sign Plain.jws_verify
           PlainFacts.plain_verify_sign PlainFacts.plain_sign_nonempty
           Plain.castString Plain.castNumber PlainFacts.plain_castString_JStr
           1000 1000
           (Sample.register_request "Ann" "a@x.com" "pw1")
           (Sample.login_request "a@x.com" "pw1")
           Sample.empty "Ann" "a@x.com" "pw1");
    vm_compute; reflexivity.
Defined.

Lemma login_failures_indistinguishable_witness :
  let denied := mkResponse 401 (message "Invalid email or password") in
  run Plain.castString Plain.castNumber
    (post_login None Plain.jws_sign 1000
       (Sample.login_request "a@x.com" "wrong"))
    Sample.with_ann = (denied, Sample.with_ann)
  ∧ run Plain.castString Plain.castNumber
      (post_login None Plain.jws_sign 2000
         (Sample.login_request "nobody@x.com" "pw1"))
      Sample.with_ann = (denied, Sample.with_ann).
Proof.
  apply (login_failures_indistinguishable None Plain.jws_sign
           Plain.castString Plain.castNumber PlainFacts.plain_castString_JStr
           1000 2000
           (Sample.login_request "a@x.com" "wrong")
           (Sample.login_request "nobody@x.com" "pw1")
           Sample.with_ann "a@x.com" "wrong" "nobody@x.com" "pw1");
    try (vm_compute; reflexivity); try discriminate.
  - exists Sample.ann. split; [apply list_elem_of_here|reflexivity].
  - intros u ->%list_elem_of_singleton _. discriminate.
  - intros u ->%list_elem_of_singleton. discriminate.
Defined.

Lemma register_once_witness :
  run Plain.castString Plain.castNumber
    (post_register (Sample.register_request "Ann" "a@x.com" "pw1"))
    Sample.empty =
  (mkResponse 201 (message "User registered successfully"), Sample.with_ann)
  ∧ run Plain.castString Plain.castNumber
      (post_register (Sample.register_request "Bob" "a@x.com" "pw2"))
      Sample.with_ann =
    (mkResponse 400 (message "User already exists"), Sample.with_ann).
Proof.
  split.
  - apply (register_once Plain.castString Plain.castNumber
             PlainFacts.plain_castString_JStr
             (Sample.register_request "Ann" "a@x.com" "pw1")
             Sample.empty "Ann" "a@x.com" "pw1");
      try (vm_compute; reflexivity); try discriminate.
    apply Forall_nil_2.
  - apply (register_once Plain.castString Plain.castNumber
             PlainFacts.plain_castString_JStr
             (Sample.register_request "Bob" "a@x.com" "pw2")
             Sample.with_ann "Bob" "a@x.com" "pw2");
      try (vm_compute; reflexivity); try discriminate.
    apply Exists_cons_hd. reflexivity.
Defined.

Lemma login_iff_conjunctive_match_witness :
  let answer :=
    run Plain.castString Plain.castNumber
      (post_login None Plain.jws_sign 1000
         (Sample.login_request "a@x.com" "pw1"))
      Sample.with_ann in
  (status (fst answer) = 200%Z ↔
   ∃ u, u ∈ users Sample.with_ann ∧ u_email u = "a@x.com"
        ∧ u_password u = "pw1")
  ∧ (status (fst answer) = 200%Z ∨ status (fst answer) = 401%Z)
  ∧ snd answer = Sample.with_ann.
Proof.
  apply (login_iff_conjunctive_match None Plain.jws_sign
           Plain.castString Plain.castNumber PlainFacts.plain_castString_JStr
           1000 (Sample.login_request "a@x.com" "pw1") Sample.with_ann
           "a@x.com" "pw1");
    try (vm_compute; reflexivity); discriminate.
Defined.

Lemma issued_token_expires_witness :
  (∃ claims, Plain.jws_verify Sample.ann_token (SECRET_KEY None) = Some claims
             ∧ exp claims = (1000 + 3600)%Z)
  ∧ jwt_verify Plain.jws_verify (Some Sample.ann_token) (SECRET_KEY None) 4600
    = Err TokenExpired.
Proof.
  apply (issued_token_expires None Plain.jws_sign Plain.jws_verify
           PlainFacts.plain_verify_sign PlainFacts.plain_sign_nonempty
           Plain.castString Plain.castNumber
           1000 4600 (Sample.login_request "a@x.com" "pw1") Sample.with_ann
           Sample.ann_token).
  - vm_compute; reflexivity.
  - vm_compute; discriminate.
Defined.

Lemma guard_rejections_witness :
  (∀ handler,
     guarded None Plain.jws_verify 1000 handler
       (mkRequest ∅ ∅ None) =
     Respond (mkResponse 401 (message "Token required")))
  ∧ (∀ handler,
       guarded None Plain.jws_verify 1000 handler
         (Sample.with_header "Bearer forged" ∅) =
       Respond (mkResponse 403 (message "Invalid token"))).
Proof.
  split.
  - apply (guard_rejections None Plain.jws_verify 1000 (mkRequest ∅ ∅ None)).
    vm_compute; reflexivity.
  - apply (proj1 (proj2 (guard_rejections None Plain.jws_verify 1000
                           (Sample.with_header "Bearer forged" ∅)))
             "Bearer forged" "forged" JwtInvalid);
      vm_compute; reflexivity.
Defined.

Lemma guard_ignores_scheme_witness :
  let req := Sample.with_header ("Basic " +:+ Sample.ann_token) ∅ in
  let req' := mkRequest (headers req) (body req) (Some Sample.ann_claims) in
  authenticateToken None Plain.jws_verify 1000 req = Next req'
  ∧ ∀ handler, guarded None Plain.jws_verify 1000 handler req = handler req'.
Proof.
  apply (guard_ignores_scheme None Plain.jws_verify 1000
           (Sample.with_header ("Basic " +:+ Sample.ann_token) ∅)
           "Basic" Sample.ann_token Sample.ann_claims);
    vm_compute; reflexivity.
Defined.

Lemma product_price_zero_rejected_witness :
  run Plain.castString Plain.castNumber
    (post_product None Plain.jws_verify 1000
       (Sample.with_header ("Bearer " +:+ Sample.ann_token) Sample.free_pen))
    Sample.with_ann =
  (mkResponse 400 (message "Product name and price are required"),
   Sample.with_ann).
Proof.
  apply (product_price_zero_rejected None Plain.jws_verify
           Plain.castString Plain.castNumber 1000
           (Sample.with_header ("Bearer " +:+ Sample.ann_token) Sample.free_pen)
           (mkRequest {[ "authorization" := "Bearer " +:+ Sample.ann_token ]}
              Sample.free_pen (Some Sample.ann_claims))
           Sample.with_ann 0%float);
    vm_compute; reflexivity.
Defined.

Lemma users_listing_hides_passwords_witness :
  ∃ docs,
    run Plain.castString Plain.castNumber
      (get_users None Plain.jws_verify 1000
         (Sample.with_header ("Bearer " +:+ Sample.ann_token) ∅))
      Sample.with_ann =
    (mkResponse 200 (JsonArr docs), Sample.with_ann)
    ∧ docs = [JsonObj [("name", JsonStr "Ann"); ("email", JsonStr "a@x.com")]]
    ∧ Forall (λ d, json_get "password" d = None ∧
                   "password" ∉ json_keys d) docs.
Proof.
  apply (users_listing_hides_passwords None Plain.jws_verify
           Plain.castString Plain.castNumber 1000
           (Sample.with_header ("Bearer " +:+ Sample.ann_token) ∅)
           (mkRequest {[ "authorization" := "Bearer " +:+ Sample.ann_token ]}
              ∅ (Some Sample.ann_claims))
           Sample.with_ann).
  vm_compute; reflexivity.
Defined.
(** ** Further properties on the sample data *)

Lemma schedule_keeps_emails_unique_witness :
  NoDup (map u_email (users (snd
    (schedule Plain.castString Plain.castNumber Sample.both_then_both
       [post_register (Sample.register_request "Ann" "a@x.com" "pw1");
        post_register (Sample.register_request "Bob" "a@x.com" "pw2")]
       Sample.empty)))).
Proof.
  apply (schedule_keeps_emails_unique Plain.castString Plain.castNumber).
  apply NoDup_nil_2.
Defined.

Lemma schedule_keeps_required_fields_witness :
  let db' :=
    snd (schedule Plain.castString Plain.castNumber Sample.both_then_both
           [post_register (Sample.register_request "Ann" "a@x.com" "pw1");
            post_product None Plain.jws_verify 1000 (Sample.bearer Sample.pen)]
           Sample.empty) in
  Forall (λ u, u_name u ≠ "" ∧ u_email u ≠ "" ∧ u_password u ≠ "")
    (users db')
  ∧ Forall (λ p, p_name p ≠ "" ∧ p_addedBy p ≠ "") (products db').
Proof.
  apply (schedule_keeps_required_fields Plain.castString Plain.castNumber).
  split; apply Forall_nil_2.
Defined.


Lemma guard_ignores_trailing_witness :
  let req := Sample.with_header ("Bearer " +:+ Sample.ann_token
                                 +:+ " and more") ∅ in
  authenticateToken None Plain.jws_verify 1000 req =
  Next (mkRequest (headers req) (body req) (Some Sample.ann_claims)).
Proof.
  apply (guard_ignores_trailing None Plain.jws_verify 1000
           (Sample.with_header ("Bearer " +:+ Sample.ann_token
                                +:+ " and more") ∅)
           "Bearer" Sample.ann_token "and more" Sample.ann_claims);
    vm_compute; reflexivity.
Defined.

Lemma guard_double_space_rejected_witness :
  guarded None Plain.jws_verify 1000 products_handler
    (Sample.with_header ("Bearer  " +:+ Sample.ann_token) ∅) =
  Respond (mkResponse 403 (message "Invalid token")).
Proof.
  apply (guard_double_space_rejected None Plain.jws_verify 1000
           (Sample.with_header ("Bearer  " +:+ Sample.ann_token) ∅)
           "Bearer" Sample.ann_token);
    vm_compute; reflexivity.
Defined.

Lemma login_token_at_guard_witness :
  (∃ u, u ∈ users Sample.with_ann
        ∧ authenticateToken None Plain.jws_verify 4599 (Sample.bearer ∅) =
          Next (mkRequest (headers (Sample.bearer ∅)) (body (Sample.bearer ∅))
                  (Some (mkClaims (u_email u) 1000 (1000 + 3600)))))
  ∧ authenticateToken None Plain.jws_verify 4600 (Sample.bearer ∅) =
    Reject (mkResponse 403 (message "Invalid token")).
Proof.
  split.
  - apply (login_token_at_guard None Plain.jws_sign Plain.jws_verify
             PlainFacts.plain_verify_sign PlainFacts.plain_sign_nonempty
             Plain.castString Plain.castNumber 1000 4599
             (Sample.login_request "a@x.com" "pw1") (Sample.bearer ∅)
             Sample.with_ann Sample.ann_token "Bearer");
      vm_compute; reflexivity.
  - apply (login_token_at_guard None Plain.jws_sign Plain.jws_verify
             PlainFacts.plain_verify_sign PlainFacts.plain_sign_nonempty
             Plain.castString Plain.castNumber 1000 4600
             (Sample.login_request "a@x.com" "pw1") (Sample.bearer ∅)
             Sample.with_ann Sample.ann_token "Bearer");
      try (vm_compute; reflexivity).
    vm_compute; discriminate.
Defined.

Lemma default_key_accepted_witness :
  let token := Plain.jws_sign (mkClaims "nobody@x.com" 0 9999)
                 "your_secret_key" in
  let req := Sample.with_header ("Bearer " +:+ token) ∅ in
  authenticateToken (Some "") Plain.jws_verify 1000 req =
  Next (mkRequest (headers req) (body req)
          (Some (mkClaims "nobody@x.com" 0 9999))).
Proof.
  apply (default_key_accepted (Some "") Plain.jws_sign Plain.jws_verify
           PlainFacts.plain_verify_sign PlainFacts.plain_sign_nonempty
           1000
           (Sample.with_header
              ("Bearer " +:+ Plain.jws_sign (mkClaims "nobody@x.com" 0 9999)
                               "your_secret_key") ∅)
           "Bearer" "nobody@x.com" 0 9999);
    try (vm_compute; reflexivity).
  by right.
Defined.

Lemma product_created_for_caller_witness :
  let doc := mkProduct "pen" 2.5%float "a@x.com" in
  run Plain.castString Plain.castNumber
    (post_product None Plain.jws_verify 1000 (Sample.bearer Sample.pen))
    Sample.with_ann =
  (mkResponse 201
     (JsonObj [("message", JsonStr "Product added successfully");
               ("product", product_json doc)]),
   mkStore [Sample.ann] [doc]).
Proof.
  apply (product_created_for_caller None Plain.jws_verify
           Plain.castString Plain.castNumber 1000
           (Sample.bearer Sample.pen) Sample.with_ann Sample.ann_claims
           "pen" 2.5%float);
    try (vm_compute; reflexivity).
  discriminate.
Defined.

Lemma product_cast_failure_is_500_witness :
  run Plain.castString Plain.castNumber
    (post_product None Plain.jws_verify 1000
       (Sample.bearer Sample.priceless_pen))
    Sample.with_ann =
  (mkResponse 500 (message "Internal server error"), Sample.with_ann).
Proof.
  apply (product_cast_failure_is_500 None Plain.jws_verify
           Plain.castString Plain.castNumber 1000
           (Sample.bearer Sample.priceless_pen) Sample.with_ann
           Sample.ann_claims);
    try (vm_compute; reflexivity).
  left. vm_compute; reflexivity.
Defined.

Lemma product_then_listed_witness :
  fst (run Plain.castString Plain.castNumber
         (get_products None Plain.jws_verify 2000 (Sample.bearer ∅))
         (snd (run Plain.castString Plain.castNumber
                 (post_product None Plain.jws_verify 1000
                    (Sample.bearer Sample.pen))
                 Sample.with_ann))) =
  mkResponse 200
    (JsonArr (map product_json (products Sample.with_ann)
              ++ [product_json (mkProduct "pen" 2.5%float "a@x.com")])).
Proof.
  apply (product_then_listed None Plain.jws_verify
           Plain.castString Plain.castNumber 1000 2000
           (Sample.bearer Sample.pen) (Sample.bearer ∅) (Sample.passed ∅)
           Sample.with_ann Sample.ann_claims "pen" 2.5%float);
    try (vm_compute; reflexivity).
  discriminate.
Defined.

Lemma register_then_listed_witness :
  fst (run Plain.castString Plain.castNumber
         (get_users None Plain.jws_verify 1000 (Sample.bearer ∅))
         (snd (run Plain.castString Plain.castNumber
                 (post_register
                    (Sample.register_request "Bob" "b@x.com" "pw2"))
                 Sample.with_ann))) =
  mkResponse 200
    (JsonArr (map (λ u, JsonObj [("name", JsonStr (u_name u));
                                 ("email", JsonStr (u_email u))])
                (users Sample.with_ann)
              ++ [JsonObj [("name", JsonStr "Bob");
                           ("email", JsonStr "b@x.com")]])).
Proof.
  apply (register_then_listed None Plain.jws_verify
           Plain.castString Plain.castNumber PlainFacts.plain_castString_JStr
           1000 (Sample.register_request "Bob" "b@x.com" "pw2")
           (Sample.bearer ∅) (Sample.passed ∅) Sample.with_ann
           "Bob" "b@x.com" "pw2");
    vm_compute; reflexivity.
Defined.

Lemma concurrent_registrations_one_winner_witness :
  ∃ pool,
    pool = fst (schedule Plain.castString Plain.castNumber
                  Sample.both_then_both
                  (map post_register
                     [Sample.register_request "Ann" "a@x.com" "pw1";
                      Sample.register_request "Bob" "a@x.com" "pw2"])
                  Sample.empty)
    ∧ ∀ i j ri rj,
        pool !! i = Some (Respond ri) → pool !! j = Some (Respond rj) →
        status ri = 201%Z → status rj = 201%Z → i = j.
Proof.
  eexists. split; [reflexivity|].
  apply (concurrent_registrations_one_winner Plain.castString
           Plain.castNumber PlainFacts.plain_castString_JStr "a@x.com"
           [Sample.register_request "Ann" "a@x.com" "pw1";
            Sample.register_request "Bob" "a@x.com" "pw2"]
           Sample.both_then_both Sample.empty).
  repeat (apply Forall_cons; split; [vm_compute; reflexivity|]).
  apply Forall_nil_2.
Defined.

Lemma registered_email_stays_taken_witness :
  let db' :=
    snd (schedule Plain.castString Plain.castNumber Sample.both_then_both
           [post_register (Sample.register_request "Cy" "c@x.com" "pw3");
            post_product None Plain.jws_verify 1000 (Sample.bearer Sample.pen)]
           Sample.with_ann) in
  run Plain.castString Plain.castNumber
    (post_register (Sample.register_request "Bob" "a@x.com" "pw2")) db' =
  (mkResponse 400 (message "User already exists"), db').
Proof.
  apply (registered_email_stays_taken Plain.castString Plain.castNumber
           PlainFacts.plain_castString_JStr "a@x.com"
           (Sample.register_request "Bob" "a@x.com" "pw2")
           Sample.both_then_both
           [post_register (Sample.register_request "Cy" "c@x.com" "pw3");
            post_product None Plain.jws_verify 1000 (Sample.bearer Sample.pen)]
           Sample.with_ann "Bob" "pw2");
    try (vm_compute; reflexivity); try discriminate.
  apply Exists_cons_hd. reflexivity.
Defined.

Lemma stored_credentials_keep_working_witness :
  let db' :=
    snd (schedule Plain.castString Plain.castNumber Sample.both_then_both
           [post_register (Sample.register_request "Cy" "c@x.com" "pw3");
            post_product None Plain.jws_verify 1000 (Sample.bearer Sample.pen)]
           Sample.with_ann) in
  run Plain.castString Plain.castNumber
    (post_login None Plain.jws_sign 2000
       (Sample.login_request "a@x.com" "pw1")) db' =
  (mkResponse 200
     (JsonObj [("token",
                JsonStr (jwt_sign Plain.jws_sign "a@x.com" (SECRET_KEY None)
                           2000))]),
   db').
Proof.
  apply (stored_credentials_keep_working None Plain.jws_sign
           Plain.castString Plain.castNumber PlainFacts.plain_castString_JStr
           2000 "a@x.com" "pw1" (Sample.login_request "a@x.com" "pw1")
           Sample.both_then_both
           [post_register (Sample.register_request "Cy" "c@x.com" "pw3");
            post_product None Plain.jws_verify 1000 (Sample.bearer Sample.pen)]
           Sample.with_ann);
    try (vm_compute; reflexivity); try discriminate.
  exists Sample.ann. split; [apply list_elem_of_here|split; reflexivity].
Defined.
